(** * Drakonis Guard: the policy model, the evaluator and the policy builder

    A shallow embedding of [core/types.ts], [core/access-control.ts] and
    [core/policy-builder.ts], and the properties of the decision function
    [hasPermission] and of the fluent builder.

    Conventions of the embedding:
    - the three nested index-signature objects of [PolicyDefinition] are finite
      maps keyed by strings, which hold the own entries of plain objects; a
      property read [o[k]] that finds no own entry goes on to
      [Object.prototype], whose standard members are described in
      [ObjectPrototype]; the process is taken to have added no member to it
      (a write of the builder that would is [Unmodelled]);
    - a call that can throw returns a [Result]; [Throw] carries the thrown
      value, so that propagation of a fault is visible in the result;
      [Unmodelled] marks the runs that are decided by a built-in object beyond
      the ones described here;
    - the optional argument [data?: any] is an [option]: [None] is
      [undefined]. *)

From Stdlib Require Import FunctionalExtensionality.
From stdpp Require Import base option list strings gmap fin_maps.

Open Scope string_scope.
Open Scope list_scope.

(** ** JavaScript values and exceptions *)

(** What a dynamic rule or the evaluator itself can throw. *)
Inductive Thrown : Type :=
  | TypeError (msg : string)
  | Raised (payload : string).

Inductive Result (A : Type) : Type :=
  | Ok (a : A)
  | Throw (e : Thrown)
  | Unmodelled (what : string).
Arguments Ok {A} a.
Arguments Throw {A} e.
Arguments Unmodelled {A} what.

Definition bind {A B : Type} (m : Result A) (k : A → Result B) : Result B :=
  match m with
  | Ok a => k a
  | Throw e => Throw e
  | Unmodelled what => Unmodelled what
  end.

Notation "x ←! m ;; k" := (bind m (fun x => k))
  (at level 100, m at next level, right associativity).

(** The values the [roles] attribute of a caller can hold.  [JObject] is an
    object without a callable [some] member; [JWithSome] is an object that
    carries a [some] method of its own (a typed array, a set-like class) and
    [method] is what that method does with the callback; numbers are the
    integral ones. *)
Inductive JsValue : Type :=
  | JUndefined
  | JNull
  | JBool (b : bool)
  | JNum (n : Z)
  | JStr (s : string)
  | JStrArray (l : list string)
  | JObject
  | JWithSome (method : (string → Result bool) → Result bool).

(** [ToBoolean], as used by [||]. *)
Definition truthy (v : JsValue) : bool :=
  match v with
  | JUndefined | JNull => false
  | JBool b => b
  | JNum n => negb (n =? 0)%Z
  | JStr s => negb (String.eqb s "")
  | JStrArray _ | JObject | JWithSome _ => true
  end.

(** A caller: [user: TUser] with [TUser = any], so [undefined] and [null] are
    possible arguments besides an object. *)
Inductive Caller (TUser : Type) : Type :=
  | CallerUndefined
  | CallerNull
  | CallerObject (u : TUser).
Arguments CallerUndefined {TUser}.
Arguments CallerNull {TUser}.
Arguments CallerObject {TUser} u.

(** The only attribute of a caller the evaluator reads: [(user as any).roles]. *)
Class UserLike (TUser : Type) := user_roles : TUser → JsValue.

(** [Array.prototype.some]: left to right, stops at the first callback result
    that is true; an exception of the callback leaves the loop. *)
Fixpoint some {A : Type} (cb : A → Result bool) (l : list A) : Result bool :=
  match l with
  | [] => Ok false
  | x :: xs =>
      match cb x with
      | Ok true => Ok true
      | Ok false => some cb xs
      | Throw e => Throw e
      | Unmodelled what => Unmodelled what
      end
  end.

(** The callback answers false, without throwing, on every element. *)
Definition all_false {A : Type} (cb : A → Result bool) (l : list A) : Prop :=
  Forall (fun x => cb x = Ok false) l.

(** ** core/types.ts *)

Section Types.
Context (TUser TData : Type).

Inductive PermissionCheck : Type :=
  | Static (b : bool)
  | Dynamic (check : Caller TUser → option TData → Result bool).

Record PolicyDefinition : Type := mkPolicy {
  roles : gmap string (gmap string (gmap string PermissionCheck))
}.
End Types.

Arguments Static {TUser TData} b.
Arguments Dynamic {TUser TData} check.
Arguments mkPolicy {TUser TData} roles.
Arguments roles {TUser TData} p.

Abbreviation ResourcePolicy TUser TData := (gmap string (PermissionCheck TUser TData)).
Abbreviation RolePolicy TUser TData := (gmap string (gmap string (PermissionCheck TUser TData))).

(** The action key the documentation reserves for "any action". *)
Definition wildcard : string := "*".

(** ** What a plain object inherits

    The objects of a policy are plain objects: a read [o[k]] without an own
    entry [k] finds the members of a standard [Object.prototype], which are
    built-in functions (and the accessor [__proto__]).  [Reached] is what such
    a read, and the reads that [checkRolePermission] makes on its result, can
    come to. *)

Module ObjectPrototype.

(** The methods of [Object.prototype]. *)
Definition object_methods : list string :=
  ["toString"; "toLocaleString"; "valueOf"; "hasOwnProperty"; "isPrototypeOf";
   "propertyIsEnumerable"; "__defineGetter__"; "__defineSetter__";
   "__lookupGetter__"; "__lookupSetter__"].

(** The string keys of [Object.prototype]. *)
Definition inherited_names : list string :=
  "constructor" :: "__proto__" :: object_methods.

(** The methods that every function has from [Function.prototype]. *)
Definition function_methods : list string := ["apply"; "bind"; "call"; "toString"].

(** The static members of the constructor [Object]. *)
Definition object_statics : list string :=
  ["assign"; "create"; "defineProperties"; "defineProperty"; "entries"; "freeze";
   "fromEntries"; "getOwnPropertyDescriptor"; "getOwnPropertyDescriptors";
   "getOwnPropertyNames"; "getOwnPropertySymbols"; "getPrototypeOf"; "groupBy";
   "hasOwn"; "is"; "isExtensible"; "isFrozen"; "isSealed"; "keys";
   "preventExtensions"; "seal"; "setPrototypeOf"; "values"].

Inductive Builtin : Type :=
  | ObjectConstructor
  | ObjectMethod (name : string)
  | FunctionMethod (name : string).

Inductive Reached : Type :=
  | RUndefined
  | RNull
  | RObjectPrototype
  | RFunction (f : Builtin)
  | RPrimitive
  | RUnmodelled (what : string).

(** [Object.prototype[k]] for a key other than [__proto__]. *)
Definition member (k : string) : Reached :=
  if bool_decide (k = "constructor") then RFunction ObjectConstructor
  else if bool_decide (k ∈ object_methods) then RFunction (ObjectMethod k)
  else RUndefined.

(** [o[k]] for a plain object [o] without an own entry [k]: the getter of
    [__proto__] answers with the prototype of [o]. *)
Definition inherited (k : string) : Reached :=
  if bool_decide (k = "__proto__") then RObjectPrototype else member k.

(** [v[k]] for a value [v] that such a read has reached.  The own members of
    a function come first ([length] and [name] are a number and a string;
    [Object] has [prototype] and its static methods), then the members of
    [Function.prototype], then those of [Object.prototype]. *)
Definition get (v : Reached) (k : string) : Reached :=
  match v with
  | RObjectPrototype =>
      if bool_decide (k = "__proto__") then RNull else member k
  | RFunction f =>
      if bool_decide (k ∈ ["length"; "name"]) then RPrimitive
      else if bool_decide (k = "prototype") then
        match f with
        | ObjectConstructor => RObjectPrototype
        | _ => RUndefined
        end
      else if bool_decide (k ∈ object_statics) then
        match f with
        | ObjectConstructor => RUnmodelled "a static method of Object"
        | _ => RUndefined
        end
      else if bool_decide (k ∈ function_methods) then RFunction (FunctionMethod k)
      else if bool_decide (k ∈ ["constructor"; "arguments"; "caller"; "__proto__"])
      then RUnmodelled "a member of Function.prototype"
      else member k
  | RPrimitive => RUnmodelled "a member of a number or of a string"
  | RUnmodelled what => RUnmodelled what
  | RUndefined | RNull => RUnmodelled "a read that the evaluator never makes"
  end.

(** [ToBoolean]; a number or a string can be either. *)
Definition truthy (v : Reached) : option bool :=
  match v with
  | RUndefined | RNull => Some false
  | RObjectPrototype | RFunction _ => Some true
  | RPrimitive | RUnmodelled _ => None
  end.

(** [f(user, data)] with [this] undefined, and [ToBoolean] of what it returns
    (the loop over the roles takes the result that way).  [Object(user, data)]
    returns an object; [toString] returns ["[object Undefined]"]; the other
    methods convert [this] to an object first, or need a callable [this], and
    throw; [hasOwnProperty] and [propertyIsEnumerable] convert the caller to a
    property key before that, which runs the conversion methods of the
    caller. *)
Definition call (f : Builtin) : Result bool :=
  match f with
  | ObjectConstructor => Ok true
  | ObjectMethod name =>
      if bool_decide (name = "toString") then Ok true
      else if bool_decide (name ∈ ["hasOwnProperty"; "propertyIsEnumerable"])
      then Unmodelled "the conversion of the caller to a property key"
      else Throw (TypeError "Cannot convert undefined or null to object")
  | FunctionMethod name =>
      Throw (TypeError ("Function.prototype." +:+ name
                        +:+ " called on a value that is not a function"))
  end.

(** [evaluateCheck] on a reached value: none is a boolean, the functions are
    called. *)
Definition evaluate (v : Reached) : Result bool :=
  match v with
  | RFunction f => call f
  | RUndefined | RNull | RObjectPrototype | RPrimitive => Ok false
  | RUnmodelled what => Unmodelled what
  end.

(** [if (!v) return false; return evaluateCheck(v[action])]. *)
Definition check_in (v : Reached) (action : string) : Result bool :=
  match truthy v with
  | Some false => Ok false
  | Some true => evaluate (get v action)
  | None => Unmodelled "the truth value of a number or of a string"
  end.

(** [if (!v) return false; resourcePolicy = v[resource]; ...]. *)
Definition check_under (v : Reached) (resource action : string) : Result bool :=
  match truthy v with
  | Some false => Ok false
  | Some true => check_in (get v resource) action
  | None => Unmodelled "the truth value of a number or of a string"
  end.
End ObjectPrototype.

(** A name that [Object.prototype] does not have. *)
Definition ordinary (k : string) : Prop := k ∉ ObjectPrototype.inherited_names.

(** ** core/access-control.ts *)

Module AccessControl.
Section AccessControl.
Context {TUser TData : Type} `{!UserLike TUser}.
Implicit Types (policy : PolicyDefinition TUser TData) (user : Caller TUser)
  (data : option TData) (role resource action : string).

(** On an entry of the policy, or on [undefined]. *)
Definition evaluateCheck (check : option (PermissionCheck TUser TData))
    user data : Result bool :=
  match check with
  | Some (Static b) => Ok b
  | Some (Dynamic f) => f user data
  | None => Ok false
  end.

Definition checkRolePermission policy role resource action user data
    : Result bool :=
  match roles policy !! role with
  | Some rolePolicy =>
      match rolePolicy !! resource with
      | Some resourcePolicy =>
          match resourcePolicy !! action with
          | Some permissionCheck => evaluateCheck (Some permissionCheck) user data
          | None => ObjectPrototype.evaluate (ObjectPrototype.inherited action)
          end
      | None =>
          ObjectPrototype.check_in (ObjectPrototype.inherited resource) action
      end
  | None =>
      ObjectPrototype.check_under (ObjectPrototype.inherited role) resource action
  end.

(** [(user as any).roles]: reading a property of [undefined] or [null]
    throws. *)
Definition roles_attribute user : Result JsValue :=
  match user with
  | CallerUndefined =>
      Throw (TypeError "Cannot read properties of undefined (reading 'roles')")
  | CallerNull =>
      Throw (TypeError "Cannot read properties of null (reading 'roles')")
  | CallerObject u => Ok (user_roles u)
  end.

Definition getUserRoles user : Result JsValue :=
  r ←! roles_attribute user ;;
  Ok (if truthy r then r else JStrArray []).

(** [roles.some(cb)]: an array has the method, an object may carry its own,
    and calling what is not a function throws. *)
Definition roles_some (rs : JsValue) (cb : string → Result bool) : Result bool :=
  match rs with
  | JStrArray l => some cb l
  | JWithSome method => method cb
  | _ => Throw (TypeError "roles.some is not a function")
  end.

Definition hasPermission policy user resource action data : Result bool :=
  rs ←! getUserRoles user ;;
  roles_some rs (fun role => checkRolePermission policy role resource action user data).
End AccessControl.
End AccessControl.

(** ** core/policy-builder.ts

    The builder owns one mutable [policy]; the stage objects returned by
    [forRole] and [onResource] hold a reference to the builder and the names
    chosen so far.  A method is a function of the builder's policy that returns
    the policy after the call (and the stage object, where there is one).  A
    write that lands on a built-in object, or that replaces the prototype of a
    role object, leaves the policy and is [Unmodelled]. *)

Module PolicyBuilder.
Section PolicyBuilder.
Context {TUser TData : Type}.
Implicit Types (policy : PolicyDefinition TUser TData)
  (role resource : string) (actions : ResourcePolicy TUser TData).

Record PolicyBuilderRole : Type := mkRoleStage { stage_role : string }.
Record PolicyBuilderResource : Type :=
  mkResourceStage { res_role : string; res_resource : string }.

(** [new PolicyBuilder()]. *)
Definition new : PolicyDefinition TUser TData := mkPolicy ∅.

(** [if (!this.policy.roles[role]) this.policy.roles[role] = {};]: an own
    role object is truthy, and so is every member of [Object.prototype]. *)
Definition ensureRole role policy : PolicyDefinition TUser TData :=
  match roles policy !! role with
  | Some _ => policy
  | None =>
      if bool_decide (role ∈ ObjectPrototype.inherited_names) then policy
      else mkPolicy (<[role := ∅]> (roles policy))
  end.

Definition forRole role policy : PolicyDefinition TUser TData * PolicyBuilderRole :=
  (ensureRole role policy, mkRoleStage role).

(** [rolePolicy[resource] = actions] on an own role object: the key
    [__proto__], unless it is an own entry, goes to the setter that replaces
    the prototype of the role object. *)
Definition assign_resource role (rolePolicy : RolePolicy TUser TData)
    resource actions policy : Result (PolicyDefinition TUser TData) :=
  if bool_decide (resource = "__proto__" ∧ rolePolicy !! resource = None)
  then Unmodelled "the prototype of a role object is replaced"
  else Ok (mkPolicy (<[role := <[resource := actions]> rolePolicy]> (roles policy))).

(** [this.policy.roles[role][resource] = actions], after the guard: the role
    object is an own entry, or the member of [Object.prototype] that made the
    guard pass. *)
Definition updatePolicy role resource actions policy
    : Result (PolicyDefinition TUser TData) :=
  let policy1 := ensureRole role policy in
  match roles policy1 !! role with
  | Some rolePolicy => assign_resource role rolePolicy resource actions policy1
  | None => Unmodelled "a write to a built-in object"
  end.

Definition onResource (stage : PolicyBuilderRole) resource : PolicyBuilderResource :=
  mkResourceStage (stage_role stage) resource.

Definition can (stage : PolicyBuilderResource) actions policy
    : Result (PolicyDefinition TUser TData) :=
  updatePolicy (res_role stage) (res_resource stage) actions policy.

Definition build policy : PolicyDefinition TUser TData := policy.

(** One link of the fluent chain:
    [builder.forRole(role).onResource(resource).can(actions)]. *)
Definition declare role resource actions policy
    : Result (PolicyDefinition TUser TData) :=
  let '(policy1, roleStage) := forRole role policy in
  can (onResource roleStage resource) actions policy1.
End PolicyBuilder.
End PolicyBuilder.

(** ** Vocabulary of the specification

    [lookup_rule] is the entry of the policy at (role, resource, action), as
    one partial function.  [spec_lookup] and [spec_verdict] follow the words
    of the specification (and of the API reference) instead of the code: the
    rule of an action is its own entry and, failing that, the entry under the
    wildcard key. *)

Section Vocabulary.
Context {TUser TData : Type}.
Implicit Types (policy : PolicyDefinition TUser TData) (user : Caller TUser)
  (data : option TData) (role resource action : string).

Definition resourcePolicyOf policy role resource
    : option (ResourcePolicy TUser TData) :=
  rolePolicy ← roles policy !! role; rolePolicy !! resource.

Definition lookup_rule policy role resource action
    : option (PermissionCheck TUser TData) :=
  resourcePolicy ← resourcePolicyOf policy role resource; resourcePolicy !! action.

Definition spec_lookup policy role resource action
    : option (PermissionCheck TUser TData) :=
  match lookup_rule policy role resource action with
  | Some rule => Some rule
  | None => lookup_rule policy role resource wildcard
  end.

Definition spec_verdict policy role resource action user data : Result bool :=
  AccessControl.evaluateCheck (spec_lookup policy role resource action) user data.

(** The policy literal that differs from [policy] in the one entry
    [roles[role][resource][action]], which is [rule]. *)
Definition set_rule policy role resource action (rule : PermissionCheck TUser TData)
    : PolicyDefinition TUser TData :=
  let rolePolicy := default ∅ (roles policy !! role) in
  let resourcePolicy := default ∅ (rolePolicy !! resource) in
  mkPolicy (<[role := <[resource := <[action := rule]> resourcePolicy]> rolePolicy]>
              (roles policy)).

(** The policy literal that differs from [policy] in the action map at
    (role, resource), which is [actions]. *)
Definition with_actions role resource (actions : ResourcePolicy TUser TData) policy
    : PolicyDefinition TUser TData :=
  mkPolicy (<[role := <[resource := actions]> (default ∅ (roles policy !! role))]>
              (roles policy)).
End Vocabulary.

(** ** Fixtures: the types and the policy of test/access-control.test.ts

    The policies are written as the literals that the builder chains of the
    tests and of the documentation produce ([fixtures_built] below). *)

Module Fixtures.
Import AccessControl PolicyBuilder.

Record User : Type := mkUser { id : string; user_roles_attr : JsValue }.
Record Article : Type :=
  mkArticle { article_id : string; authorId : string; content : string }.

#[export] Instance User_UserLike : UserLike User := user_roles_attr.

(** [(user, article) => user.id === article?.authorId] *)
Definition isAuthor (user : Caller User) (article : option Article) : Result bool :=
  match user with
  | CallerObject u =>
      Ok (match article with
          | Some a => String.eqb (id u) (authorId a)
          | None => false
          end)
  | CallerUndefined =>
      Throw (TypeError "Cannot read properties of undefined (reading 'id')")
  | CallerNull =>
      Throw (TypeError "Cannot read properties of null (reading 'id')")
  end.

(** The action maps of the test. *)
Definition adminActions : ResourcePolicy User Article :=
  <["create" := Static true]> (<["delete" := Static true]> ∅).
Definition authorActions : ResourcePolicy User Article :=
  <["create" := Static true]> (<["delete" := Dynamic isAuthor]> ∅).

Definition testPolicy : PolicyDefinition User Article :=
  mkPolicy (<["author" := <["article" := authorActions]> ∅]>
              (<["admin" := <["article" := adminActions]> ∅]> ∅)).

(** The policy of the API reference, section "Wildcard Permissions". *)
Definition wildcardPolicy : PolicyDefinition User Article :=
  mkPolicy (<["admin" := <["article" := <["*" := Static true]> ∅]> ∅]> ∅).

(** A rule whose author made a mistake: it throws whenever it is called. *)
Definition faulty (user : Caller User) (article : option Article) : Result bool :=
  Throw (Raised "boom").

Definition faultyPolicy : PolicyDefinition User Article :=
  mkPolicy (<["buggy" := <["article" := <["delete" := Dynamic faulty]> ∅]> ∅]>
              (<["admin" := <["article" := <["delete" := Static true]> ∅]> ∅]> ∅)).

(** [(user) => !user.roles.includes('suspended')]: arrays and strings have
    the method [includes]. *)
Definition notSuspended (user : Caller User) (article : option Article) : Result bool :=
  match user with
  | CallerObject u =>
      match user_roles_attr u with
      | JStrArray l => Ok (negb (bool_decide ("suspended" ∈ l)))
      | JStr s => Ok (negb (bool_decide (is_Some (String.index 0 "suspended" s))))
      | JUndefined =>
          Throw (TypeError "Cannot read properties of undefined (reading 'includes')")
      | JNull =>
          Throw (TypeError "Cannot read properties of null (reading 'includes')")
      | JBool _ | JNum _ | JObject =>
          Throw (TypeError "user.roles.includes is not a function")
      | JWithSome _ => Unmodelled "the member includes of an object with its own some"
      end
  | CallerUndefined =>
      Throw (TypeError "Cannot read properties of undefined (reading 'roles')")
  | CallerNull =>
      Throw (TypeError "Cannot read properties of null (reading 'roles')")
  end.

Definition memberPolicy : PolicyDefinition User Article :=
  mkPolicy (<["member" := <["article" := <["read" := Dynamic notSuspended]> ∅]> ∅]> ∅).

(** A policy with an entry for [delete] next to a wildcard entry. *)
Definition mixedPolicy : PolicyDefinition User Article :=
  mkPolicy
    (<["admin" :=
         <["article" := <["delete" := Static false]> (<["*" := Static true]> ∅)]> ∅]> ∅).

Definition withRoles (l : list string) : Caller User :=
  CallerObject (mkUser "1" (JStrArray l)).


(** The article of the tests, written by [author]. *)
Definition article (author : string) : option Article :=
  Some (mkArticle "a1" author "test").
End Fixtures.

(** ** Programs over the builder

    A client holds the builder and the stage objects it got from it, and calls
    them in some order: [builder.forRole(role)], or [can(actions)] on a stage
    object that [forRole(role).onResource(resource)] returned earlier. *)

Section BuilderPrograms.
Context {TUser TData : Type}.

Inductive BuilderCall : Type :=
  | CallForRole (role : string)
  | CallCan (role resource : string) (actions : ResourcePolicy TUser TData).

Definition call (c : BuilderCall) (policy : PolicyDefinition TUser TData)
    : Result (PolicyDefinition TUser TData) :=
  match c with
  | CallForRole role => Ok (PolicyBuilder.forRole role policy).1
  | CallCan role resource actions =>
      PolicyBuilder.can (PolicyBuilder.mkResourceStage role resource) actions policy
  end.

Fixpoint run (calls : list BuilderCall) (policy : PolicyDefinition TUser TData)
    : Result (PolicyDefinition TUser TData) :=
  match calls with
  | [] => Ok policy
  | c :: calls' => policy' ←! call c policy ;; run calls' policy'
  end.

(** The action map of the last [can] for (role, resource) among [calls], or
    [before] when there is none. *)
Definition last_declared (calls : list BuilderCall) (role resource : string)
    (before : option (ResourcePolicy TUser TData))
    : option (ResourcePolicy TUser TData) :=
  foldl (fun acc c =>
           match c with
           | CallCan role' resource' actions =>
               if decide (role' = role ∧ resource' = resource)
               then Some actions else acc
           | CallForRole _ => acc
           end) before calls.

(** Every [can] is called on a stage object that an earlier [forRole] of the
    program, or of the calls that made the roles [seen], returned. *)
Fixpoint well_staged (seen : gset string) (calls : list BuilderCall) : Prop :=
  match calls with
  | [] => True
  | CallForRole role :: calls' => well_staged ({[role]} ∪ seen) calls'
  | CallCan role _ _ :: calls' => role ∈ seen ∧ well_staged seen calls'
  end.

(** The names that the [can] calls of a program write under are not members
    of [Object.prototype]. *)
Definition ordinary_call (c : BuilderCall) : Prop :=
  match c with
  | CallForRole _ => True
  | CallCan role resource _ => ordinary role ∧ ordinary resource
  end.
End BuilderPrograms.

(** Two clients of the builder, over the types of the tests. *)

(** A client that declares [delete] for admins twice, the second time after
    [forRole] of another role. *)
Definition redeclaringProgram : list (@BuilderCall Fixtures.User Fixtures.Article) :=
  [CallForRole "admin";
   CallCan "admin" "article" (<["delete" := Static false]> ∅);
   CallForRole "author";
   CallCan "admin" "article" (<["delete" := Static true]> ∅)].

(** A client that keeps the stage object of [admin] and uses it after
    [forRole] of another role. *)
Definition keptStageProgram : list (@BuilderCall Fixtures.User Fixtures.Article) :=
  [CallForRole "admin"; CallForRole "author";
   CallCan "admin" "article" (<["delete" := Static true]> ∅)].

(** ** The builder with closures

    The variant of [PolicyBuilder] whose [forRole] returns object literals:
    the guard is in [forRole] only, and the [can] closure writes
    [this.policy.roles[role][resource] = actions] without a guard of its
    own. *)

Module ClosureBuilder.
Section ClosureBuilder.
Context {TUser TData : Type}.
Implicit Types (policy : PolicyDefinition TUser TData)
  (role resource : string) (actions : ResourcePolicy TUser TData).

(** The closure captures [role]; the builder is the one [this]. *)
Definition forRole role policy : PolicyDefinition TUser TData * string :=
  (PolicyBuilder.ensureRole role policy, role).

(** Writing a property of [undefined] throws; a member of [Object.prototype]
    is not [undefined]. *)
Definition can role resource actions policy : Result (PolicyDefinition TUser TData) :=
  match roles policy !! role with
  | Some rolePolicy =>
      PolicyBuilder.assign_resource role rolePolicy resource actions policy
  | None =>
      if bool_decide (role ∈ ObjectPrototype.inherited_names)
      then Unmodelled "a write to a built-in object"
      else Throw (TypeError ("Cannot set properties of undefined (setting '"
                             +:+ resource +:+ "')"))
  end.

Definition build policy : PolicyDefinition TUser TData := policy.

Definition call (c : BuilderCall) policy : Result (PolicyDefinition TUser TData) :=
  match c with
  | CallForRole role => Ok (forRole role policy).1
  | CallCan role resource actions => can role resource actions policy
  end.

Fixpoint run (calls : list BuilderCall) policy : Result (PolicyDefinition TUser TData) :=
  match calls with
  | [] => Ok policy
  | c :: calls' => policy' ←! call c policy ;; run calls' policy'
  end.
End ClosureBuilder.
End ClosureBuilder.

(** ** examples/nestjs-example.ts: the policy and the guard *)

Module NestExample.
Import AccessControl PolicyBuilder.

Inductive Status : Type := draft | published | archived.

#[export] Instance Status_eq_dec : EqDecision Status.
Proof. solve_decision. Defined.

Record User : Type := mkUser {
  id : string;
  user_roles_attr : JsValue;
  email : string;
  isActive : bool
}.

Record Article : Type := mkArticle {
  article_id : string;
  authorId : string;
  title : string;
  content : string;
  status : Status;
  createdAt : Z
}.

#[export] Instance User_UserLike : UserLike User := user_roles_attr.

(** A rule of the example: [(user, article) => body], where [body] reads a
    property of [article] first and a property of [user] after it. *)
Definition rule (body : User → Article → bool) (first_read : string)
    (user : Caller User) (article : option Article) : Result bool :=
  match article, user with
  | None, _ =>
      Throw (TypeError ("Cannot read properties of undefined (reading '"
                        +:+ first_read +:+ "')"))
  | Some a, CallerObject u => Ok (body u a)
  | Some a, CallerUndefined =>
      Throw (TypeError "Cannot read properties of undefined (reading 'id')")
  | Some a, CallerNull =>
      Throw (TypeError "Cannot read properties of null (reading 'id')")
  end.

(** [article.authorId === user.id || article.status === 'published'] *)
Definition authorRead (u : User) (a : Article) : bool :=
  String.eqb (authorId a) (id u) || bool_decide (status a = published).

(** [article.authorId === user.id && article.status !== 'archived'] *)
Definition authorUpdate (u : User) (a : Article) : bool :=
  String.eqb (authorId a) (id u) && negb (bool_decide (status a = archived)).

(** [article.authorId === user.id && article.status === 'draft'] *)
Definition authorDelete (u : User) (a : Article) : bool :=
  String.eqb (authorId a) (id u) && bool_decide (status a = draft).

(** [(user, article) => article.status === 'published']: [user] is not
    read. *)
Definition readerRead (user : Caller User) (article : option Article) : Result bool :=
  match article with
  | None =>
      Throw (TypeError "Cannot read properties of undefined (reading 'status')")
  | Some a => Ok (bool_decide (status a = published))
  end.

Definition adminActions : ResourcePolicy User Article :=
  <["create" := Static true]>
    (<["read" := Static true]>
       (<["update" := Static true]>
          (<["delete" := Static true]>
             (<["publish" := Static true]>
                (<["archive" := Static true]> ∅))))).

Definition authorActions : ResourcePolicy User Article :=
  <["create" := Static true]>
    (<["read" := Dynamic (rule authorRead "authorId")]>
       (<["update" := Dynamic (rule authorUpdate "authorId")]>
          (<["delete" := Dynamic (rule authorDelete "authorId")]>
             (<["publish" := Dynamic (rule authorDelete "authorId")]> ∅)))).

Definition readerActions : ResourcePolicy User Article :=
  <["read" := Dynamic readerRead]> ∅.

(** The policy that the chain of the example builds ([fixtures_built]
    below). *)
Definition policy : PolicyDefinition User Article :=
  mkPolicy (<["reader" := <["article" := readerActions]> ∅]>
              (<["author" := <["article" := authorActions]> ∅]>
                 (<["admin" := <["article" := adminActions]> ∅]> ∅))).

(** [PermissionGuard.canActivate] *)
Definition canActivate (user : Caller User) (resource action : string)
    (data : option Article) : Result bool :=
  hasPermission policy user resource action data.
End NestExample.

(** * Properties *)

Import AccessControl PolicyBuilder.

(** ** The loop of [Array.prototype.some] *)

Section SomeFacts.
Context {A : Type} (cb : A → Result bool).

Lemma some_cons_false x l : cb x = Ok false → some cb (x :: l) = some cb l.
Proof. intros E. simpl. by rewrite E. Qed.

Lemma some_skip pre l : all_false cb pre → some cb (pre ++ l) = some cb l.
Proof.
  induction 1 as [|x pre Hx _ IH]; [done|].
  rewrite <- app_comm_cons, some_cons_false; done.
Qed.

Lemma some_false_iff l : some cb l = Ok false ↔ all_false cb l.
Proof.
  split.
  - induction l as [|x l IH]; intros E; [constructor|].
    simpl in E. destruct (cb x) as [[]|e|w] eqn:Ex; try discriminate.
    constructor; [done | by apply IH].
  - intros H. rewrite <- (app_nil_r l), some_skip by done. done.
Qed.

(** [some] answers with what the callback answered on the first element on
    which it did not answer false. *)
Lemma some_first r l :
  r ≠ Ok false →
  some cb l = r ↔
  ∃ pre x post, l = pre ++ x :: post ∧ all_false cb pre ∧ cb x = r.
Proof.
  intros Hr. split.
  - induction l as [|x l IH]; simpl; intros E; [congruence|].
    destruct (cb x) as [[]|e|w] eqn:Ex.
    + exists [], x, l. repeat split; [constructor | congruence].
    + destruct (IH E) as (pre & y & post & -> & Hpre & Hy).
      exists (x :: pre), y, post. repeat split; [by constructor | done].
    + exists [], x, l. repeat split; [constructor | congruence].
    + exists [], x, l. repeat split; [constructor | congruence].
  - intros (pre & x & post & -> & Hpre & Hx).
    rewrite some_skip by done. simpl. rewrite Hx.
    destruct r as [[]|e|w]; congruence.
Qed.

Lemma some_true_iff l :
  some cb l = Ok true ↔
  ∃ pre x post, l = pre ++ x :: post ∧ all_false cb pre ∧ cb x = Ok true.
Proof. by apply some_first. Qed.


Lemma some_true_elem l : some cb l = Ok true → ∃ x, x ∈ l ∧ cb x = Ok true.
Proof.
  intros (pre & x & post & -> & _ & Hx)%some_true_iff.
  exists x. split; [set_solver | done].
Qed.

Lemma some_true_app l l' : some cb l = Ok true → some cb (l ++ l') = Ok true.
Proof.
  intros (pre & x & post & -> & Hpre & Hx)%some_true_iff.
  apply some_true_iff. exists pre, x, (post ++ l').
  by rewrite <- app_assoc.
Qed.

(** Without a throwing callback the loop is the disjunction. *)
Lemma some_total_true l :
  (∀ x, x ∈ l → ∃ b, cb x = Ok b) →
  some cb l = Ok true ↔ ∃ x, x ∈ l ∧ cb x = Ok true.
Proof.
  intros Htot. split; [apply some_true_elem|].
  induction l as [|y l IH]; intros (x & Hin & Hx); [by apply elem_of_nil in Hin|].
  simpl. destruct (Htot y) as [[] Ey]; [left| |]; rewrite Ey; [done|].
  apply IH.
  - intros z Hz. apply Htot. by right.
  - apply elem_of_cons in Hin as [->|Hin]; [congruence|eauto].
Qed.

Lemma some_singleton x : some cb [x] = cb x.
Proof. simpl. by destruct (cb x) as [[]|e|w]. Qed.
End SomeFacts.

Lemma some_ext {A} (f g : A → Result bool) l :
  (∀ x, x ∈ l → f x = g x) → some f l = some g l.
Proof.
  induction l as [|x l IH]; intros H; [done|].
  simpl. rewrite <- (H x) by left. rewrite IH; [done|].
  intros y Hy. apply H. by right.
Qed.

(** ** Reading the policy *)

(** Closes a goal [ordinary k], or a list of such goals, for literal names. *)
Ltac ordinary_names :=
  repeat constructor;
  try (apply (bool_decide_unpack _); exact I).

Section LookupFacts.
Context {TUser TData : Type} `{!UserLike TUser}.
Implicit Types (policy : PolicyDefinition TUser TData) (user : Caller TUser)
  (data : option TData) (role resource action : string)
  (rule : PermissionCheck TUser TData).

(** A read of an ordinary name that finds no own entry finds nothing. *)
Lemma inherited_ordinary k :
  ordinary k → ObjectPrototype.inherited k = ObjectPrototype.RUndefined.
Proof.
  unfold ordinary, ObjectPrototype.inherited, ObjectPrototype.member,
    ObjectPrototype.inherited_names.
  rewrite !not_elem_of_cons. intros (Hc & Hp & Hm).
  rewrite !bool_decide_eq_false_2; done.
Qed.

Lemma inherited_name k :
  ¬ ordinary k → k ∈ ObjectPrototype.inherited_names.
Proof. unfold ordinary. apply dec_stable. Qed.

(** With own entries all the way the evaluator evaluates the entry. *)
Lemma checkRolePermission_own policy role resource action user data
    (rolePolicy : RolePolicy TUser TData) (resourcePolicy : ResourcePolicy TUser TData) rule :
  roles policy !! role = Some rolePolicy →
  rolePolicy !! resource = Some resourcePolicy →
  resourcePolicy !! action = Some rule →
  checkRolePermission policy role resource action user data
  = evaluateCheck (Some rule) user data.
Proof. intros Hrole Hres Hact. unfold checkRolePermission. by rewrite Hrole, Hres, Hact. Qed.


(** With ordinary names the evaluator evaluates the entry of the policy at
    (role, resource, action), or [undefined] when there is none. *)
Lemma checkRolePermission_ordinary policy role resource action user data :
  ordinary role → ordinary resource → ordinary action →
  checkRolePermission policy role resource action user data
  = evaluateCheck (lookup_rule policy role resource action) user data.
Proof.
  intros Hrole Hres Hact. unfold checkRolePermission, lookup_rule, resourcePolicyOf.
  destruct (roles policy !! role) as [rolePolicy|]; simpl.
  - destruct (rolePolicy !! resource) as [resourcePolicy|]; simpl.
    + destruct (resourcePolicy !! action); [done|]. by rewrite inherited_ordinary.
    + by rewrite inherited_ordinary.
  - by rewrite inherited_ordinary.
Qed.

(** A role that the policy does not declare and whose name is ordinary
    contributes deny. *)
Lemma checkRolePermission_undeclared policy role resource action user data :
  roles policy !! role = None → ordinary role →
  checkRolePermission policy role resource action user data = Ok false.
Proof.
  intros Hnone Hrole. unfold checkRolePermission. rewrite Hnone.
  by rewrite inherited_ordinary.
Qed.


Lemma getUserRoles_object (u : TUser) l :
  user_roles u = JStrArray l → getUserRoles (CallerObject u) = Ok (JStrArray l).
Proof. unfold getUserRoles. simpl. by intros ->. Qed.

Lemma hasPermission_array policy user resource action data l :
  getUserRoles user = Ok (JStrArray l) →
  hasPermission policy user resource action data =
  some (fun role => checkRolePermission policy role resource action user data) l.
Proof. unfold hasPermission. by intros ->. Qed.

(** Two requests with the same verdict for every role get the same
    decision. *)
Lemma hasPermission_ext policy policy' user resource resource' action action' data :
  (∀ role, checkRolePermission policy' role resource' action' user data
           = checkRolePermission policy role resource action user data) →
  hasPermission policy' user resource' action' data
  = hasPermission policy user resource action data.
Proof.
  intros H. unfold hasPermission.
  destruct (getUserRoles user) as [[]|e|w]; simpl; try done.
  - by apply some_ext.
  - f_equal. by apply functional_extensionality.
Qed.
End LookupFacts.

(** ** Rule resolution: entries and the wildcard key *)

Section Resolution.
Context {TUser TData : Type} `{!UserLike TUser}.
Implicit Types (policy : PolicyDefinition TUser TData) (user : Caller TUser)
  (data : option TData) (role resource action : string).

(** The entry under the wildcard key is read only when the wildcard key is
    the requested action. *)
Lemma checkRolePermission_set_wildcard policy role resource wild
    (rolePolicy : RolePolicy TUser TData) (resourcePolicy : ResourcePolicy TUser TData)
    role' resource' action user data :
  roles policy !! role = Some rolePolicy →
  rolePolicy !! resource = Some resourcePolicy →
  action ≠ wildcard →
  checkRolePermission (set_rule policy role resource wildcard wild)
    role' resource' action user data
  = checkRolePermission policy role' resource' action user data.
Proof.
  intros Hrole Hres Hne. unfold checkRolePermission, set_rule. simpl.
  rewrite Hrole. simpl. rewrite Hres. simpl.
  destruct (decide (role' = role)) as [->|Hrole'].
  - rewrite lookup_insert_eq, Hrole.
    destruct (decide (resource' = resource)) as [->|Hres'].
    + rewrite lookup_insert_eq, Hres. by rewrite lookup_insert_ne.
    + by rewrite lookup_insert_ne.
  - by rewrite lookup_insert_ne.
Qed.

(** C2.  When the resource policy of (role, resource) has an entry for the
    requested action and an entry under ['*'], the verdict of the role is the
    evaluation of the entry of the action: whatever rule sits under ['*'],
    the verdict of the role and the decision stay the same, and a caller
    whose one role is [role] gets exactly the verdict of the entry of the
    action. *)
Theorem action_specific_rule_wins policy role resource action user data
    (rolePolicy : RolePolicy TUser TData) (resourcePolicy : ResourcePolicy TUser TData)
    (rule wild : PermissionCheck TUser TData) :
  roles policy !! role = Some rolePolicy →
  rolePolicy !! resource = Some resourcePolicy →
  resourcePolicy !! action = Some rule →
  resourcePolicy !! wildcard = Some wild →
  checkRolePermission policy role resource action user data
    = evaluateCheck (Some rule) user data
  ∧ (action ≠ wildcard → ∀ wild',
       checkRolePermission (set_rule policy role resource wildcard wild')
         role resource action user data
       = evaluateCheck (Some rule) user data)
  ∧ (action ≠ wildcard → ∀ wild',
       hasPermission (set_rule policy role resource wildcard wild')
         user resource action data
       = hasPermission policy user resource action data)
  ∧ (getUserRoles user = Ok (JStrArray [role]) →
       hasPermission policy user resource action data
       = evaluateCheck (Some rule) user data).
Proof.
  intros Hrole Hres Hact _.
  assert (checkRolePermission policy role resource action user data
          = evaluateCheck (Some rule) user data) as Hverdict
    by (by eapply checkRolePermission_own).
  repeat split.
  - exact Hverdict.
  - intros Hne wild'. by erewrite checkRolePermission_set_wildcard.
  - intros Hne wild'. apply hasPermission_ext. intros role'.
    by eapply checkRolePermission_set_wildcard.
  - intros Hroles. rewrite (hasPermission_array _ _ _ _ _ _ Hroles).
    by rewrite some_singleton.
Qed.

End Resolution.

(** ** Aggregation over the roles of the caller *)

Section Aggregation.
Context {TUser TData : Type} `{!UserLike TUser}.
Implicit Types (policy : PolicyDefinition TUser TData) (user : Caller TUser)
  (data : option TData) (role resource action : string).

(** Where no role falls back on a wildcard entry and the names are ordinary,
    the verdict in the words of the specification is the verdict the code
    computes. *)
Lemma spec_verdict_code policy role resource action user data :
  ordinary role → ordinary resource → ordinary action →
  (lookup_rule policy role resource action = None →
   lookup_rule policy role resource wildcard = None) →
  spec_verdict policy role resource action user data
  = checkRolePermission policy role resource action user data.
Proof.
  intros Hrole Hres Hact H. rewrite checkRolePermission_ordinary by done.
  unfold spec_verdict, spec_lookup.
  destruct (lookup_rule policy role resource action) eqn:E; [done|].
  by rewrite H.
Qed.

(** C3, amended.  For a caller with the role list [l], none of whose roles
    has a wildcard entry without an entry for the action, and with names of
    roles, resource and action that are not members of [Object.prototype]:
    the decision is grant exactly when some role resolves to grant and every
    role before it in the list resolves to deny or absent without a fault
    (when no rule faults: exactly when some role resolves to grant); an empty
    role list is denied; and the decision is deny exactly when every role
    resolves to deny or absent. *)
Theorem or_aggregation policy user resource action data l :
  getUserRoles user = Ok (JStrArray l) →
  Forall (fun role =>
            lookup_rule policy role resource action = None →
            lookup_rule policy role resource wildcard = None) l →
  Forall ordinary l → ordinary resource → ordinary action →
  let verdict := fun role => spec_verdict policy role resource action user data in
  let decision := hasPermission policy user resource action data in
  (decision = Ok true ↔
     ∃ pre role post, l = pre ++ role :: post
       ∧ all_false verdict pre ∧ verdict role = Ok true)
  ∧ ((∀ role, role ∈ l → ∃ b, verdict role = Ok b) →
     (decision = Ok true ↔ ∃ role, role ∈ l ∧ verdict role = Ok true))
  ∧ (l = [] → decision = Ok false)
  ∧ (decision = Ok false ↔ ∀ role, role ∈ l → verdict role = Ok false).
Proof.
  intros Hroles Hnofallback Hnames Hres Hact verdict decision.
  assert (decision = some verdict l) as ->.
  { unfold decision. rewrite (hasPermission_array _ _ _ _ _ _ Hroles).
    apply some_ext. intros role Hin. symmetry. apply spec_verdict_code; [|done..|].
    - by apply (proj1 (Forall_forall _ _) Hnames).
    - by apply (proj1 (Forall_forall _ _) Hnofallback). }
  repeat split.
  - by apply some_true_iff.
  - by apply some_true_iff.
  - by apply some_total_true.
  - by apply some_total_true.
  - by intros ->.
  - intros H. by apply Forall_forall, some_false_iff.
  - intros H. by apply some_false_iff, Forall_forall.
Qed.


(** C6, amended.  A caller object whose [roles] attribute is missing, null
    or another falsy value has no roles and is denied without a fault; a
    [roles] attribute that is truthy but neither an array nor an object with a
    [some] method of its own, and a caller that is itself [undefined] or
    [null], make the decision throw a [TypeError]; an object with a [some]
    method of its own decides by that method. *)
Theorem falsy_roles_is_no_roles policy resource action data :
  (∀ u : TUser, truthy (user_roles u) = false →
     getUserRoles (CallerObject u) = Ok (JStrArray [])
     ∧ hasPermission policy (CallerObject u) resource action data = Ok false)
  ∧ (∀ u : TUser, truthy (user_roles u) = true →
       (∀ l, user_roles u ≠ JStrArray l) →
       (∀ method, user_roles u ≠ JWithSome method) →
       hasPermission policy (CallerObject u) resource action data
       = Throw (TypeError "roles.some is not a function"))
  ∧ (∀ (u : TUser) method, user_roles u = JWithSome method →
       hasPermission policy (CallerObject u) resource action data
       = method (fun role =>
                   checkRolePermission policy role resource action (CallerObject u) data))
  ∧ (∃ msg, hasPermission policy CallerUndefined resource action data
            = Throw (TypeError msg))
  ∧ (∃ msg, hasPermission policy CallerNull resource action data
            = Throw (TypeError msg)).
Proof.
  split; [|split; [|split; [|split]]].
  - intros u Hfalsy. split.
    + unfold getUserRoles. simpl. by rewrite Hfalsy.
    + unfold hasPermission, getUserRoles. simpl. by rewrite Hfalsy.
  - intros u Htruthy Hnotarray Hnosome. unfold hasPermission, getUserRoles. simpl.
    rewrite Htruthy. destruct (user_roles u); try done.
    + by destruct (Hnotarray l).
    + by destruct (Hnosome method).
  - intros u method Hu. unfold hasPermission, getUserRoles. simpl. by rewrite Hu.
  - by eexists.
  - by eexists.
Qed.

(** C7, amended.  Let the caller [u'] differ from the caller [u] by more
    roles, and let the rules of the roles of [u] give [u'] the verdicts they
    give [u] (they do not depend on the role list of the caller).  If the
    decision for [u] is grant, then the decision for [u'] is grant when the
    new roles are appended, and is never deny wherever the new roles are. *)
Theorem role_extension_monotone policy (u u' : TUser) resource action data l :
  user_roles u = JStrArray l →
  (∀ role, role ∈ l →
     checkRolePermission policy role resource action (CallerObject u') data
     = checkRolePermission policy role resource action (CallerObject u) data) →
  hasPermission policy (CallerObject u) resource action data = Ok true →
  (∀ extra, user_roles u' = JStrArray (l ++ extra) →
     hasPermission policy (CallerObject u') resource action data = Ok true)
  ∧ (∀ l', user_roles u' = JStrArray l' → (∀ role, role ∈ l → role ∈ l') →
       hasPermission policy (CallerObject u') resource action data ≠ Ok false).
Proof.
  intros Hu Hsame.
  rewrite (hasPermission_array _ _ _ _ _ _ (getUserRoles_object _ _ Hu)).
  intros Hgrant. split.
  - intros extra Hu'.
    rewrite (hasPermission_array _ _ _ _ _ _ (getUserRoles_object _ _ Hu')).
    apply some_true_app. rewrite <- Hgrant. by apply some_ext.
  - intros l' Hu' Hsub.
    rewrite (hasPermission_array _ _ _ _ _ _ (getUserRoles_object _ _ Hu')).
    intros Hdeny%some_false_iff.
    apply some_true_elem in Hgrant as (role & Hin & Hrole).
    pose proof (proj1 (Forall_forall _ _) Hdeny role (Hsub role Hin)) as Hrole'.
    simpl in Hrole'. rewrite (Hsame role Hin) in Hrole'. congruence.
Qed.
End Aggregation.

(** ** The policy builder *)

Section BuilderFacts.
Context {TUser TData : Type} `{!UserLike TUser}.
Implicit Types (policy : PolicyDefinition TUser TData) (user : Caller TUser)
  (data : option TData) (role resource action : string)
  (actions : ResourcePolicy TUser TData) (calls : list (@BuilderCall TUser TData)).

Lemma policy_eq policy policy' : roles policy = roles policy' → policy = policy'.
Proof. destruct policy, policy'. simpl. by intros ->. Qed.

Lemma ensureRole_declared policy role :
  is_Some (roles policy !! role) → ensureRole role policy = policy.
Proof. intros [rolePolicy E]. unfold ensureRole. by rewrite E. Qed.

Lemma ensureRole_lookup_ne policy role role' :
  role' ≠ role → roles (ensureRole role policy) !! role' = roles policy !! role'.
Proof.
  intros Hne. unfold ensureRole. destruct (roles policy !! role); simpl; [done|].
  case_bool_decide; simpl; [done|]. by rewrite lookup_insert_ne.
Qed.

(** After the guard a role with an ordinary name is declared. *)
Lemma ensureRole_lookup policy role :
  ordinary role →
  roles (ensureRole role policy) !! role = Some (default ∅ (roles policy !! role)).
Proof.
  intros Hrole. unfold ensureRole. destruct (roles policy !! role) eqn:E; simpl.
  - by rewrite E.
  - rewrite bool_decide_eq_false_2 by done. simpl. apply lookup_insert_eq.
Qed.

Lemma ensureRole_idemp policy role :
  ensureRole role (ensureRole role policy) = ensureRole role policy.
Proof.
  unfold ensureRole. destruct (roles policy !! role) eqn:E.
  - by rewrite E.
  - case_bool_decide as Hname.
    + by rewrite E.
    + simpl. by rewrite lookup_insert_eq.
Qed.

Lemma resourcePolicyOf_ensureRole policy role role' resource' :
  resourcePolicyOf (ensureRole role policy) role' resource'
  = resourcePolicyOf policy role' resource'.
Proof.
  unfold resourcePolicyOf, ensureRole.
  destruct (roles policy !! role) eqn:E; [done|].
  case_bool_decide; [done|]. simpl.
  destruct (decide (role' = role)) as [->|Hne].
  - rewrite lookup_insert_eq, E. done.
  - by rewrite lookup_insert_ne.
Qed.

(** The guard creates a role object only where the role had none and
    inherits none: for an ordinary resource the verdicts are as before. *)
Lemma checkRolePermission_ensureRole policy role role' resource action user data :
  ordinary resource →
  checkRolePermission (ensureRole role policy) role' resource action user data
  = checkRolePermission policy role' resource action user data.
Proof.
  intros Hres. unfold ensureRole. destruct (roles policy !! role) eqn:E; [done|].
  case_bool_decide as Hname; [done|]. unfold checkRolePermission. simpl.
  destruct (decide (role' = role)) as [->|Hne].
  - rewrite lookup_insert_eq, E, lookup_empty.
    rewrite (inherited_ordinary resource), (inherited_ordinary role); done.
  - by rewrite lookup_insert_ne.
Qed.

Lemma updatePolicy_ordinary policy role resource actions :
  ordinary role → ordinary resource →
  updatePolicy role resource actions policy
  = Ok (with_actions role resource actions policy).
Proof.
  intros Hrole Hres. unfold updatePolicy. rewrite ensureRole_lookup by done.
  unfold assign_resource. rewrite bool_decide_eq_false_2.
  - f_equal. apply policy_eq. unfold with_actions, ensureRole. simpl.
    destruct (roles policy !! role) eqn:E; [done|].
    rewrite bool_decide_eq_false_2 by done. simpl. by rewrite insert_insert_eq.
  - intros [-> _]. apply Hres. unfold ObjectPrototype.inherited_names. set_solver.
Qed.

Lemma declare_ordinary policy role resource actions :
  ordinary role → ordinary resource →
  declare role resource actions policy
  = Ok (with_actions role resource actions policy).
Proof.
  intros Hrole Hres. unfold declare, forRole, can, onResource. simpl.
  rewrite updatePolicy_ordinary by done. f_equal. apply policy_eq.
  unfold with_actions. simpl. rewrite ensureRole_lookup by done. simpl.
  unfold ensureRole. destruct (roles policy !! role) eqn:E; [done|].
  rewrite bool_decide_eq_false_2 by done. simpl. by rewrite insert_insert_eq.
Qed.

Lemma resourcePolicyOf_with_actions policy role resource actions role' resource' :
  resourcePolicyOf (with_actions role resource actions policy) role' resource'
  = if decide (role' = role ∧ resource' = resource)
    then Some actions else resourcePolicyOf policy role' resource'.
Proof.
  unfold resourcePolicyOf, with_actions. simpl.
  destruct (decide (role' = role)) as [->|Hrole].
  - rewrite lookup_insert_eq. simpl.
    destruct (decide (resource' = resource)) as [->|Hres].
    + rewrite lookup_insert_eq. case_decide as H; [done | by destruct H].
    + rewrite lookup_insert_ne by done. case_decide as H; [by destruct H|].
      by destruct (roles policy !! role).
  - rewrite lookup_insert_ne by done. case_decide as H; [by destruct H | done].
Qed.

Lemma with_actions_declared policy role resource actions role' :
  is_Some (roles policy !! role') →
  is_Some (roles (with_actions role resource actions policy) !! role').
Proof.
  intros H. unfold with_actions. simpl.
  destruct (decide (role' = role)) as [->|Hne].
  - rewrite lookup_insert_eq. eauto.
  - by rewrite lookup_insert_ne.
Qed.

(** A declaration under ordinary names leaves the verdicts of the other
    roles, and those about the other ordinary resources, as they were. *)
Lemma checkRolePermission_with_actions policy role resource actions
    role' resource' action user data :
  ordinary role →
  role' ≠ role ∨ (resource' ≠ resource ∧ ordinary resource') →
  checkRolePermission (with_actions role resource actions policy)
    role' resource' action user data
  = checkRolePermission policy role' resource' action user data.
Proof.
  intros Hrole Hother. unfold checkRolePermission, with_actions. simpl.
  destruct (decide (role' = role)) as [->|Hne].
  - destruct Hother as [?|[Hres Hord]]; [done|].
    rewrite lookup_insert_eq, lookup_insert_ne by done.
    destruct (roles policy !! role); simpl; [done|].
    rewrite lookup_empty, (inherited_ordinary resource'), (inherited_ordinary role); done.
  - by rewrite lookup_insert_ne.
Qed.

Lemma resourcePolicyOf_call (c : @BuilderCall TUser TData) policy policy' role resource :
  call c policy = Ok policy' →
  ordinary_call c →
  resourcePolicyOf policy' role resource
  = last_declared [c] role resource (resourcePolicyOf policy role resource).
Proof.
  destruct c as [role'|role' resource' actions]; simpl.
  - intros [= <-] _. apply resourcePolicyOf_ensureRole.
  - intros Hcall [Hrole Hres]. unfold can in Hcall. simpl in Hcall.
    rewrite updatePolicy_ordinary in Hcall by done. injection Hcall as <-.
    rewrite resourcePolicyOf_with_actions.
    destruct (decide (role = role' ∧ resource = resource')) as [[-> ->]|Hne].
    + by rewrite decide_True.
    + rewrite decide_False; [done|]. intros [-> ->]. by apply Hne.
Qed.

Lemma call_ordinary (c : @BuilderCall TUser TData) policy :
  ordinary_call c → ∃ policy', call c policy = Ok policy'.
Proof.
  destruct c as [role|role resource actions]; simpl.
  - eauto.
  - intros [Hrole Hres]. unfold can. simpl.
    rewrite updatePolicy_ordinary by done. eauto.
Qed.

(** C9.  [forRole] on a role that is already declared leaves the policy of
    the builder as it is; in any case a second [forRole] changes nothing
    more, and no resource policy of any role is changed by [forRole]. *)
Theorem forRole_declared_idempotent policy role :
  (is_Some (roles policy !! role) → (forRole role policy).1 = policy)
  ∧ (forRole role (forRole role policy).1).1 = (forRole role policy).1
  ∧ (∀ role' resource',
       resourcePolicyOf (forRole role policy).1 role' resource'
       = resourcePolicyOf policy role' resource').
Proof.
  simpl. split; [|split].
  - apply ensureRole_declared.
  - apply ensureRole_idemp.
  - intros role' resource'. apply resourcePolicyOf_ensureRole.
Qed.
End BuilderFacts.

(** * Further properties of the code *)

(** ** Programs over the builder, and the decisions on what they build *)

Section BuilderProgramFacts.
Context {TUser TData : Type} `{!UserLike TUser}.
Implicit Types (policy : PolicyDefinition TUser TData) (user : Caller TUser)
  (data : option TData) (role resource action : string)
  (actions : ResourcePolicy TUser TData) (calls : list (@BuilderCall TUser TData)).

(** X1.  Whatever the calls on a builder and their order, as long as the
    [can] calls write under names of roles and resources that are not members
    of [Object.prototype], the builder ends with a policy that gives each
    (role, resource) the action map of the last [can] for that pair, or what
    it had before when there was none; and the decision on that policy, for
    ordinary names of roles, resource and action, evaluates, role by role, the
    entry of the action in that last map. *)
Theorem run_last_write_wins calls policy :
  Forall ordinary_call calls →
  ∃ policy', run calls policy = Ok policy'
    ∧ (∀ role resource,
         resourcePolicyOf policy' role resource
         = last_declared calls role resource (resourcePolicyOf policy role resource))
    ∧ (∀ user l resource action data,
         getUserRoles user = Ok (JStrArray l) →
         Forall ordinary l → ordinary resource → ordinary action →
         hasPermission policy' user resource action data
         = some (fun role =>
                   evaluateCheck
                     (resourcePolicy ← last_declared calls role resource
                                         (resourcePolicyOf policy role resource);
                      resourcePolicy !! action)
                     user data) l).
Proof.
  intros Hcalls.
  assert (∃ policy', run calls policy = Ok policy'
            ∧ ∀ role resource,
                resourcePolicyOf policy' role resource
                = last_declared calls role resource (resourcePolicyOf policy role resource))
    as (policy' & Hrun & Hlast).
  { revert policy. induction Hcalls as [|c calls Hc _ IH]; intros policy.
    { by exists policy. }
    destruct (call_ordinary c policy Hc) as [policy1 Hcall].
    destruct (IH policy1) as (policy' & Hrun & Hlast).
    exists policy'. split.
    - simpl. by rewrite Hcall.
    - intros role resource. rewrite Hlast.
      rewrite (resourcePolicyOf_call c policy policy1) by done. done. }
  exists policy'. split; [done|]. split; [done|].
  intros user l resource action data Hroles Hnames Hres Hact.
  rewrite (hasPermission_array _ _ _ _ _ _ Hroles). apply some_ext.
  intros role Hin.
  rewrite checkRolePermission_ordinary;
    [|by apply (proj1 (Forall_forall _ _) Hnames)|done..].
  unfold lookup_rule. by rewrite Hlast.
Qed.

(** X2.  Declarations for two different (role, resource) pairs, under names
    that are not members of [Object.prototype], commute: both orders succeed
    and leave the builder with the same policy. *)
Theorem declare_commute policy role1 resource1 role2 resource2
    (M1 M2 : ResourcePolicy TUser TData) :
  (role1, resource1) ≠ (role2, resource2) →
  ordinary role1 → ordinary resource1 → ordinary role2 → ordinary resource2 →
  ∃ policy',
    (policy2 ←! declare role2 resource2 M2 policy ;;
     declare role1 resource1 M1 policy2) = Ok policy'
    ∧ (policy1 ←! declare role1 resource1 M1 policy ;;
       declare role2 resource2 M2 policy1) = Ok policy'.
Proof.
  intros Hne Hr1 Hs1 Hr2 Hs2.
  exists (with_actions role1 resource1 M1 (with_actions role2 resource2 M2 policy)).
  rewrite !declare_ordinary by done. simpl. rewrite !declare_ordinary by done.
  split; [done|]. f_equal. apply policy_eq. unfold with_actions. simpl.
  destruct (decide (role1 = role2)) as [->|Hrole].
  - rewrite !lookup_insert_eq, !insert_insert_eq. simpl.
    f_equal. apply insert_insert_ne. congruence.
  - rewrite !lookup_insert_ne by done. by apply insert_insert_ne.
Qed.

(** X3.  A declaration for (role, resource), under names that are not
    members of [Object.prototype], succeeds, changes no decision about
    another resource with such a name, and changes no decision at all for a
    caller that does not hold the role. *)
Theorem declare_is_local policy role resource actions :
  ordinary role → ordinary resource →
  ∃ policy', declare role resource actions policy = Ok policy'
    ∧ (∀ user resource' action data,
         resource' ≠ resource → ordinary resource' →
         hasPermission policy' user resource' action data
         = hasPermission policy user resource' action data)
    ∧ (∀ user l resource' action data,
         getUserRoles user = Ok (JStrArray l) → role ∉ l →
         hasPermission policy' user resource' action data
         = hasPermission policy user resource' action data).
Proof.
  intros Hrole Hres. exists (with_actions role resource actions policy).
  split; [by apply declare_ordinary|]. split.
  - intros user resource' action data Hne Hord. apply hasPermission_ext.
    intros role'. apply checkRolePermission_with_actions; auto.
  - intros user l resource' action data Hroles Hnotin.
    rewrite !(hasPermission_array _ _ _ _ _ _ Hroles). apply some_ext.
    intros role' Hin. apply checkRolePermission_with_actions; [done|].
    left. by intros ->.
Qed.

(** X4.  [forRole] alone grants nothing about a resource whose name is not a
    member of [Object.prototype]: after it the decision, for every caller,
    action and instance, is what it was before. *)
Theorem forRole_changes_no_decision policy role user resource action data :
  ordinary resource →
  hasPermission (forRole role policy).1 user resource action data
  = hasPermission policy user resource action data.
Proof.
  intros Hres. apply hasPermission_ext. intros role'.
  by apply checkRolePermission_ensureRole.
Qed.

Lemma closure_can_declared policy role resource actions :
  is_Some (roles policy !! role) → ordinary role → ordinary resource →
  ClosureBuilder.can role resource actions policy
  = Ok (with_actions role resource actions policy).
Proof.
  intros [rolePolicy E] Hrole Hres. unfold ClosureBuilder.can. rewrite E.
  unfold assign_resource. rewrite bool_decide_eq_false_2.
  - f_equal. apply policy_eq. unfold with_actions. by rewrite E.
  - intros [-> _]. apply Hres. unfold ObjectPrototype.inherited_names. set_solver.
Qed.

Lemma ensureRole_declares policy role role' :
  (role' = role ∧ ordinary role) ∨ is_Some (roles policy !! role') →
  is_Some (roles (ensureRole role policy) !! role').
Proof.
  destruct (decide (role' = role)) as [->|Hne].
  - intros [[_ Hrole]|H].
    + rewrite ensureRole_lookup by done. eauto.
    + by rewrite ensureRole_declared.
  - intros [[? _]|H]; [done|]. by rewrite ensureRole_lookup_ne.
Qed.

(** X5.  As long as every [can] is called on a stage object that an earlier
    [forRole] returned, and the names of roles and resources are not members
    of [Object.prototype], the builder with closures never throws and ends
    with the policy that the builder with stage classes ends with, whatever
    the calls between a [forRole] and the [can] of its stage.  The guard the
    closure lacks matters only on a role that no [forRole] has declared: there
    its [can] throws a [TypeError], where the [can] of the stage class declares
    the role. *)
Theorem closure_builder_agrees calls policy (seen : gset string) :
  (Forall ordinary_call calls →
   (∀ role, role ∈ seen → ordinary role → is_Some (roles policy !! role)) →
   well_staged seen calls →
   ∃ policy', ClosureBuilder.run calls policy = Ok policy'
              ∧ run calls policy = Ok policy')
  ∧ (∀ role resource actions,
       roles policy !! role = None → ordinary role → ordinary resource →
       (∃ msg, ClosureBuilder.can role resource actions policy = Throw (TypeError msg))
       ∧ ∃ policy',
           PolicyBuilder.can (mkResourceStage role resource) actions policy = Ok policy'
           ∧ resourcePolicyOf policy' role resource = Some actions).
Proof.
  split.
  - intros Hcalls. revert policy seen.
    induction Hcalls as [|c calls Hc _ IH]; intros policy seen Hseen Hstaged.
    { by exists policy. }
    destruct c as [role|role resource actions]; simpl in *.
    + apply (IH _ ({[role]} ∪ seen)); [|done].
      intros role' [->%elem_of_singleton|Hin]%elem_of_union Hord;
        apply ensureRole_declares; auto.
    + destruct Hstaged as [Hin Hstaged]. destruct Hc as [Hord Hres].
      rewrite closure_can_declared by auto. simpl.
      unfold can. simpl. rewrite updatePolicy_ordinary by done. simpl.
      apply (IH _ seen); [|done].
      intros role' Hin' Hord'. apply with_actions_declared. auto.
  - intros role resource actions Hnone Hrole Hres. split.
    + unfold ClosureBuilder.can. rewrite Hnone.
      rewrite bool_decide_eq_false_2 by done. by eexists.
    + exists (with_actions role resource actions policy). unfold can. simpl.
      rewrite updatePolicy_ordinary by done. split; [done|].
      rewrite resourcePolicyOf_with_actions. by rewrite decide_True.
Qed.
End BuilderProgramFacts.

(** ** The role list of the caller *)

Section RoleListFacts.
Context {TUser TData : Type} `{!UserLike TUser}.
Implicit Types (policy : PolicyDefinition TUser TData)
  (data : option TData) (role resource action : string).

(** Elements on which the callback answers false can be left out. *)
Lemma some_filter {A} (P : A → Prop) `{!∀ x, Decision (P x)}
    (cb : A → Result bool) (l : list A) :
  (∀ x, x ∈ l → ¬ P x → cb x = Ok false) →
  some cb (filter P l) = some cb l.
Proof.
  induction l as [|x l IH]; intros Hcb; [done|].
  assert (some cb (filter P l) = some cb l) as IH'.
  { apply IH. intros y Hy. apply Hcb. by right. }
  destruct (decide (P x)) as [HP|HP].
  - rewrite filter_cons_True by done. simpl. by rewrite IH'.
  - rewrite filter_cons_False by done. simpl. rewrite (Hcb x) by (done || left).
    exact IH'.
Qed.

(** A callback that never throws makes the loop answer a boolean, true
    exactly when the callback is true somewhere. *)
Lemma some_total_cases {A} (cb : A → Result bool) (l : list A) :
  (∀ x, x ∈ l → ∃ b, cb x = Ok b) →
  (some cb l = Ok true ∧ ∃ x, x ∈ l ∧ cb x = Ok true)
  ∨ (some cb l = Ok false ∧ ∀ x, x ∈ l → cb x = Ok false).
Proof.
  intros Htot. induction l as [|x l IH].
  { right. split; [done|]. intros x Hx. by apply elem_of_nil in Hx. }
  destruct (Htot x) as [[] Hx]; [left| |].
  - left. simpl. rewrite Hx. split; [done|]. exists x. split; [left|done].
  - destruct IH as [[E (y & Hy & Ey)]|[E Hall]].
    { intros y Hy. apply Htot. by right. }
    + left. simpl. rewrite Hx. split; [done|]. exists y. split; [by right|done].
    + right. simpl. rewrite Hx. split; [done|].
      intros y [->|Hy]%elem_of_cons; auto.
Qed.

(** X6.  Roles that the policy does not declare, and whose names are not
    members of [Object.prototype], are ignored wherever they stand in the role
    list: the caller without them gets the same decision, grant, deny or
    fault, provided the rules of the declared roles answer the two callers
    alike. *)
Theorem undeclared_roles_ignored policy (u u' : TUser) resource action data l :
  user_roles u = JStrArray l →
  user_roles u' = JStrArray (filter (fun role => is_Some (roles policy !! role)) l) →
  (∀ role, role ∈ l → roles policy !! role = None → ordinary role) →
  (∀ role, role ∈ l → is_Some (roles policy !! role) →
     checkRolePermission policy role resource action (CallerObject u') data
     = checkRolePermission policy role resource action (CallerObject u) data) →
  hasPermission policy (CallerObject u') resource action data
  = hasPermission policy (CallerObject u) resource action data.
Proof.
  intros Hu Hu' Hnames Hsame.
  rewrite (hasPermission_array _ _ _ _ _ _ (getUserRoles_object _ _ Hu)).
  rewrite (hasPermission_array _ _ _ _ _ _ (getUserRoles_object _ _ Hu')).
  rewrite <- (some_filter (fun role => is_Some (roles policy !! role)) _ l).
  - apply some_ext. intros role [Hdecl Hin]%list_elem_of_filter. by apply Hsame.
  - intros role Hin Hundecl. apply checkRolePermission_undeclared.
    + destruct (roles policy !! role); [|done]. destruct Hundecl. eauto.
    + apply Hnames; [done|].
      destruct (roles policy !! role); [|done]. destruct Hundecl. eauto.
Qed.

(** X7.  When no rule of the roles of the caller throws, the decision depends
    on the set of roles only: two callers whose role lists have the same
    members, in any order and with any repetitions, and whom the rules answer
    alike, get the same decision. *)
Theorem role_order_and_repetition_irrelevant policy (u u' : TUser) resource action data l l' :
  user_roles u = JStrArray l →
  user_roles u' = JStrArray l' →
  (∀ role, role ∈ l ↔ role ∈ l') →
  (∀ role, role ∈ l → ∃ b,
     checkRolePermission policy role resource action (CallerObject u) data = Ok b
     ∧ checkRolePermission policy role resource action (CallerObject u') data = Ok b) →
  hasPermission policy (CallerObject u') resource action data
  = hasPermission policy (CallerObject u) resource action data.
Proof.
  intros Hu Hu' Hmem Htot.
  rewrite (hasPermission_array _ _ _ _ _ _ (getUserRoles_object _ _ Hu)).
  rewrite (hasPermission_array _ _ _ _ _ _ (getUserRoles_object _ _ Hu')).
  set (cb := fun role => checkRolePermission policy role resource action (CallerObject u) data).
  set (cb' := fun role => checkRolePermission policy role resource action (CallerObject u') data).
  assert (∀ role, role ∈ l → cb' role = cb role) as Hsame.
  { intros role Hin. destruct (Htot role Hin) as (b & E & E'). unfold cb, cb'. congruence. }
  destruct (some_total_cases cb l) as [[-> (role & Hin & Hrole)]|[-> Hall]].
  { intros role Hin. destruct (Htot role Hin) as (b & E & _). eauto. }
  - destruct (some_total_cases cb' l') as [[-> _]|[_ Hall']]; [|done|].
    { intros r Hr%Hmem. destruct (Htot r Hr) as (b & _ & E'). eauto. }
    rewrite <- Hsame in Hrole by done.
    rewrite Hall' in Hrole by (by apply Hmem). discriminate.
  - apply some_false_iff, Forall_forall. intros role Hin%Hmem.
    rewrite Hsame by done. by apply Hall.
Qed.

(** X8.  Where every role of the caller has a static rule or no rule for the
    requested (resource, action), and the names of roles, resource and action
    are not members of [Object.prototype], the decision never throws and does
    not depend on the instance or on anything else about the caller: it is
    true exactly when one of the roles has the static rule [true]. *)
Theorem static_rules_decide_alone policy user resource action data l :
  getUserRoles user = Ok (JStrArray l) →
  Forall ordinary l → ordinary resource → ordinary action →
  (∀ role check, role ∈ l →
     lookup_rule policy role resource action ≠ Some (Dynamic check)) →
  hasPermission policy user resource action data
  = Ok (existsb (fun role =>
                   match lookup_rule policy role resource action with
                   | Some (Static true) => true
                   | _ => false
                   end) l).
Proof.
  intros Hroles Hnames Hres Hact Hstatic. rewrite (hasPermission_array _ _ _ _ _ _ Hroles).
  clear Hroles. induction Hnames as [|role l Hrole Hnames IH]; [done|].
  simpl. rewrite checkRolePermission_ordinary by done.
  assert (role ∈ role :: l) as Hin by left.
  destruct (lookup_rule policy role resource action) as [[[]|check]|] eqn:E; simpl.
  - done.
  - apply IH. intros role' check Hin'. apply Hstatic. by right.
  - by destruct (Hstatic role check Hin).
  - apply IH. intros role' check Hin'. apply Hstatic. by right.
Qed.
End RoleListFacts.

(** ** The policies of the tests and of the documentation *)

Section Scenarios.
Import Fixtures.

(** The builder chains of the test, of the API reference and of the example
    produce the policy literals of the fixtures. *)
Example fixtures_built :
  (policy1 ←! declare "admin" "article" adminActions new ;;
   declare "author" "article" authorActions policy1) = Ok testPolicy
  ∧ declare "admin" "article" (<["*" := Static true]> ∅) new = Ok wildcardPolicy
  ∧ (policy1 ←! declare "admin" "article" NestExample.adminActions new ;;
     policy2 ←! declare "author" "article" NestExample.authorActions policy1 ;;
     declare "reader" "article" NestExample.readerActions policy2)
    = Ok NestExample.policy.
Proof. repeat split. Qed.

(** The two tests of test/access-control.test.ts, and the denial of an
    author on the article of somebody else. *)
Example admin_can_delete_any_article :
  hasPermission testPolicy (withRoles ["admin"]) "article" "delete" (article "2")
  = Ok true.
Proof. reflexivity. Qed.

Example author_can_delete_own_article :
  hasPermission testPolicy (withRoles ["author"]) "article" "delete" (article "1")
  = Ok true.
Proof. reflexivity. Qed.

Example author_cannot_delete_other_article :
  hasPermission testPolicy (withRoles ["author"]) "article" "delete" (article "2")
  = Ok false.
Proof. reflexivity. Qed.

(** C1.  The policy of the API reference gives [admin] the wildcard rule
    [true] on [article] and no entry for [delete]: in the words of the
    specification the verdict of [admin] for [delete] is grant, and
    [hasPermission] answers deny, because [checkRolePermission] reads the
    entry of the requested action only. *)
Theorem wildcard_entry_not_consulted :
  lookup_rule wildcardPolicy "admin" "article" "*" = Some (Static true)
  ∧ lookup_rule wildcardPolicy "admin" "article" "delete" = None
  ∧ spec_verdict wildcardPolicy "admin" "article" "delete" (withRoles ["admin"]) None
    = Ok true
  ∧ hasPermission wildcardPolicy (withRoles ["admin"]) "article" "delete" None
    = Ok false.
Proof. repeat split. Qed.

(** C4.  The policy of the tests has no rule for the action [toString] or
    [valueOf], and no role [constructor]: the read of the missing entry finds
    the member of [Object.prototype] with that name, and [hasPermission]
    grants [toString] to an admin, grants (prototype, constructor) to a caller
    whose only role is the undeclared [constructor], and throws for
    [valueOf], where an absent entry is to give deny. *)
Theorem inherited_name_is_not_absent :
  lookup_rule testPolicy "admin" "article" "toString" = None
  ∧ hasPermission testPolicy (withRoles ["admin"]) "article" "toString" None = Ok true
  ∧ roles testPolicy !! "constructor" = None
  ∧ hasPermission testPolicy (withRoles ["constructor"]) "prototype" "constructor" None
    = Ok true
  ∧ lookup_rule testPolicy "admin" "article" "valueOf" = None
  ∧ (∃ msg, hasPermission testPolicy (withRoles ["admin"]) "article" "valueOf" None
            = Throw (TypeError msg)).
Proof. repeat split. by eexists. Qed.


Lemma action_specific_rule_wins_witness :
  checkRolePermission mixedPolicy "admin" "article" "delete" (withRoles ["admin"]) None
  = Ok false
  ∧ hasPermission mixedPolicy (withRoles ["admin"]) "article" "delete" None
    = Ok false.
Proof.
  edestruct (action_specific_rule_wins mixedPolicy "admin" "article" "delete"
               (withRoles ["admin"]) None) as (H1 & _ & _ & H4);
    [reflexivity | reflexivity | reflexivity | reflexivity |].
  split; [exact H1 | apply H4; reflexivity].
Defined.

Lemma or_aggregation_witness :
  hasPermission testPolicy (withRoles ["author"; "admin"]) "article" "delete" (article "2")
  = Ok true.
Proof.
  destruct (or_aggregation testPolicy (withRoles ["author"; "admin"])
              "article" "delete" (article "2") ["author"; "admin"])
    as (H1 & _);
    [reflexivity | by repeat constructor | ordinary_names ..|].
  apply H1. exists ["author"], "admin", []. repeat split. by repeat constructor.
Defined.

(** [admin] resolves to grant, but the rule of [buggy], which comes first in
    the role list, throws: the decision is the fault, not grant. *)
Lemma or_aggregation_fault_before_grant :
  "admin" ∈ ["buggy"; "admin"]
  ∧ spec_verdict faultyPolicy "admin" "article" "delete"
      (withRoles ["buggy"; "admin"]) None = Ok true
  ∧ hasPermission faultyPolicy (withRoles ["buggy"; "admin"]) "article" "delete" None
    = Throw (Raised "boom").
Proof. split; [set_solver | by split]. Qed.



Lemma falsy_roles_is_no_roles_witness :
  hasPermission testPolicy (CallerObject (mkUser "1" JUndefined)) "article" "delete" None
  = Ok false.
Proof.
  destruct (falsy_roles_is_no_roles testPolicy "article" "delete" None) as (H1 & _).
  apply (H1 (mkUser "1" JUndefined)). reflexivity.
Defined.

(** A caller whose [roles] attribute is the string ["admin"]: not an array,
    and the decision is a [TypeError], not deny. *)
Lemma string_roles_throws :
  (∀ l, user_roles (mkUser "1" (JStr "admin")) ≠ JStrArray l)
  ∧ hasPermission testPolicy (CallerObject (mkUser "1" (JStr "admin")))
      "article" "delete" None
    = Throw (TypeError "roles.some is not a function").
Proof. by split. Qed.

Lemma role_extension_monotone_witness :
  hasPermission testPolicy (withRoles ["admin"; "author"]) "article" "delete" (article "2")
  = Ok true.
Proof.
  destruct (role_extension_monotone testPolicy
              (mkUser "1" (JStrArray ["admin"]))
              (mkUser "1" (JStrArray ["admin"; "author"]))
              "article" "delete" (article "2") ["admin"]) as (H1 & _).
  - reflexivity.
  - intros role ->%list_elem_of_singleton. reflexivity.
  - reflexivity.
  - apply (H1 ["author"]). reflexivity.
Defined.

(** The rule of [member] reads the role list of the caller: the caller with
    the role [member] is granted, the caller with the roles [member] and
    [suspended] is denied. *)
Lemma added_role_revokes_grant :
  hasPermission memberPolicy (withRoles ["member"]) "article" "read" None = Ok true
  ∧ hasPermission memberPolicy (withRoles ["member"; "suspended"]) "article" "read" None
    = Ok false.
Proof. by split. Qed.

Lemma forRole_declared_idempotent_witness :
  (forRole "admin" testPolicy).1 = testPolicy.
Proof.
  destruct (forRole_declared_idempotent testPolicy "admin") as (H1 & _).
  apply H1. eexists. reflexivity.
Defined.

End Scenarios.

(** ** The policy and the guard of examples/nestjs-example.ts *)

Section NestExampleFacts.
Import NestExample.

Lemma nest_policy_undeclared role :
  role ∉ ["admin"; "author"; "reader"] → roles policy !! role = None.
Proof.
  intros Hnotin. destruct (roles policy !! role) as [rolePolicy|] eqn:E; [|done].
  destruct Hnotin. apply elem_of_map_to_list in E.
  apply (list_elem_of_fmap_2 fst) in E.
  assert (fst <$> map_to_list (roles policy) = ["author"; "admin"; "reader"]) as Hdom
    by (vm_compute; reflexivity).
  rewrite Hdom in E. simpl in E. clear Hdom.
  repeat (apply elem_of_cons in E as [->|E]; [repeat constructor|]).
  by apply elem_of_nil in E.
Qed.

(** No member of [Object.prototype] has a member [article]: a role that the
    policy does not declare contributes deny to a request about [article],
    whatever its name. *)
Lemma nest_undeclared_role_denies role action (user : Caller User) data :
  roles policy !! role = None →
  checkRolePermission policy role "article" action user data = Ok false.
Proof.
  intros Hnone. unfold checkRolePermission. rewrite Hnone.
  destruct (decide (ordinary role)) as [Hord|Hname].
  - by rewrite inherited_ordinary.
  - apply inherited_name in Hname.
    unfold ObjectPrototype.inherited_names, ObjectPrototype.object_methods in Hname.
    repeat (apply elem_of_cons in Hname as [->|Hname]; [reflexivity|]).
    by apply elem_of_nil in Hname.
Qed.

(** X9.  In the policy of the example, a caller whose first role is [admin]
    passes the guard for each of the six actions on [article], with any
    article and with none, whatever roles follow. *)
Theorem admin_first_passes_guard (u : User) rest action data :
  user_roles u = JStrArray ("admin" :: rest) →
  action ∈ ["create"; "read"; "update"; "delete"; "publish"; "archive"] →
  canActivate (CallerObject u) "article" action data = Ok true.
Proof.
  intros Hu Hin. unfold canActivate.
  rewrite (hasPermission_array _ _ _ _ _ _ (getUserRoles_object _ _ Hu)).
  repeat (apply elem_of_cons in Hin as [->|Hin]; [reflexivity|]).
  by apply elem_of_nil in Hin.
Qed.

(** X10.  In the policy of the example, for a caller whose one role is
    [author] and any article: [publish] is decided as [delete] is; whoever may
    [delete] may [update]; whoever may [update] may [read]. *)
Theorem author_permissions_nest (u : User) (a : Article) :
  user_roles u = JStrArray ["author"] →
  let may := fun action => canActivate (CallerObject u) "article" action (Some a) in
  may "publish" = may "delete"
  ∧ (may "delete" = Ok true → may "update" = Ok true)
  ∧ (may "update" = Ok true → may "read" = Ok true).
Proof.
  intros Hu may.
  assert (∀ action, may action
            = checkRolePermission policy "author" "article" action
                (CallerObject u) (Some a)) as Hmay.
  { intros action. unfold may, canActivate.
    rewrite (hasPermission_array _ _ _ _ _ _ (getUserRoles_object _ _ Hu)).
    by rewrite some_singleton. }
  rewrite !Hmay.
  change (Ok (authorDelete u a) = Ok (authorDelete u a)
          ∧ (Ok (authorDelete u a) = Ok true → Ok (authorUpdate u a) = Ok true)
          ∧ (Ok (authorUpdate u a) = Ok true → Ok (authorRead u a) = Ok true)).
  unfold authorDelete, authorUpdate, authorRead.
  destruct (String.eqb (authorId a) (id u)), (status a); simpl; repeat split; done.
Qed.

(** X11.  In the policy of the example the rules of [author] and [reader] for
    [read] dereference the article: when the guard is asked without an
    article and the first declared role of the caller is [author] or
    [reader], it throws a [TypeError] instead of answering. *)
Theorem read_without_article_throws (u : User) pre role post :
  user_roles u = JStrArray (pre ++ role :: post) →
  (∀ r, r ∈ pre → r ∉ ["admin"; "author"; "reader"]) →
  role = "author" ∨ role = "reader" →
  ∃ msg, canActivate (CallerObject u) "article" "read" None = Throw (TypeError msg).
Proof.
  intros Hu Hpre Hrole. unfold canActivate.
  rewrite (hasPermission_array _ _ _ _ _ _ (getUserRoles_object _ _ Hu)).
  rewrite some_skip.
  - destruct Hrole as [->| ->]; by eexists.
  - apply Forall_forall. intros r Hr.
    apply nest_undeclared_role_denies, nest_policy_undeclared. by apply Hpre.
Qed.

Lemma admin_first_passes_guard_witness :
  canActivate
    (CallerObject (mkUser "admin123" (JStrArray ["admin"; "reader"]) "admin@example.com" true))
    "article" "archive" None
  = Ok true.
Proof.
  apply (admin_first_passes_guard _ ["reader"]); [reflexivity | repeat constructor].
Defined.

Lemma author_permissions_nest_witness :
  canActivate
    (CallerObject (mkUser "author123" (JStrArray ["author"]) "author@example.com" true))
    "article" "update"
    (Some (mkArticle "article456" "author123" "My Article" "content" draft 0))
  = Ok true.
Proof.
  destruct (author_permissions_nest
              (mkUser "author123" (JStrArray ["author"]) "author@example.com" true)
              (mkArticle "article456" "author123" "My Article" "content" draft 0))
    as (_ & H2 & _); [reflexivity|].
  apply H2. reflexivity.
Defined.

Lemma read_without_article_throws_witness :
  ∃ msg,
    canActivate
      (CallerObject (mkUser "reader123" (JStrArray ["guest"; "reader"; "admin"])
                       "reader@example.com" true))
      "article" "read" None
    = Throw (TypeError msg).
Proof.
  apply (read_without_article_throws _ ["guest"] "reader" ["admin"]).
  - reflexivity.
  - intros r ->%list_elem_of_singleton Hin.
    repeat (apply elem_of_cons in Hin as [?|Hin]; [discriminate|]).
    by apply elem_of_nil in Hin.
  - by right.
Defined.
End NestExampleFacts.

(** ** Instances on the policy of the tests *)

Section FurtherScenarios.
Import Fixtures.

Lemma run_last_write_wins_witness :
  ∃ policy', run redeclaringProgram new = Ok policy'
    ∧ hasPermission policy' (withRoles ["author"; "admin"]) "article" "delete" None
      = Ok true.
Proof.
  destruct (run_last_write_wins redeclaringProgram new) as (policy' & Hrun & _ & H2).
  { unfold redeclaringProgram. repeat constructor; ordinary_names. }
  exists policy'. split; [done|].
  rewrite (H2 (withRoles ["author"; "admin"]) ["author"; "admin"]);
    [reflexivity | reflexivity | ordinary_names ..].
Defined.

Lemma declare_commute_witness :
  ∃ policy',
    (policy2 ←! declare "author" "article" (<["create" := Static true]> ∅)
                  (@new User Article) ;;
     declare "admin" "article" (<["delete" := Static true]> ∅) policy2) = Ok policy'
    ∧ (policy1 ←! declare "admin" "article" (<["delete" := Static true]> ∅) new ;;
       declare "author" "article" (<["create" := Static true]> ∅) policy1) = Ok policy'.
Proof. apply declare_commute; [discriminate | ordinary_names ..]. Defined.

Lemma declare_is_local_witness :
  ∃ policy',
    declare "author" "comment" (<["delete" := Static true]> ∅) testPolicy = Ok policy'
    ∧ hasPermission policy' (withRoles ["admin"]) "article" "delete" None
      = hasPermission testPolicy (withRoles ["admin"]) "article" "delete" None.
Proof.
  destruct (declare_is_local testPolicy "author" "comment"
              (<["delete" := Static true]> ∅)) as (policy' & Hdeclare & H1 & _);
    [ordinary_names ..|].
  exists policy'. split; [done|]. apply H1; [discriminate | ordinary_names].
Defined.

Lemma forRole_changes_no_decision_witness :
  hasPermission (forRole "ghost" testPolicy).1 (withRoles ["ghost"]) "article" "delete" None
  = hasPermission testPolicy (withRoles ["ghost"]) "article" "delete" None.
Proof. apply forRole_changes_no_decision. ordinary_names. Defined.

Lemma closure_builder_agrees_witness :
  ∃ policy', ClosureBuilder.run keptStageProgram new = Ok policy'
             ∧ run keptStageProgram new = Ok policy'.
Proof.
  destruct (closure_builder_agrees keptStageProgram new ∅) as [H1 _].
  apply H1.
  - unfold keptStageProgram. repeat constructor; ordinary_names.
  - intros role Hin. by apply elem_of_empty in Hin.
  - simpl. split; [|done].
    apply elem_of_union_r, elem_of_union_l. by apply elem_of_singleton.
Defined.

Lemma undeclared_roles_ignored_witness :
  hasPermission testPolicy (withRoles ["admin"]) "article" "delete" (article "2")
  = hasPermission testPolicy (withRoles ["ghost"; "admin"]) "article" "delete" (article "2").
Proof.
  apply (undeclared_roles_ignored testPolicy
           (mkUser "1" (JStrArray ["ghost"; "admin"]))
           (mkUser "1" (JStrArray ["admin"]))
           "article" "delete" (article "2") ["ghost"; "admin"]).
  - reflexivity.
  - reflexivity.
  - intros role Hin _.
    repeat (apply elem_of_cons in Hin as [->|Hin]; [ordinary_names|]).
    by apply elem_of_nil in Hin.
  - intros role Hin _.
    repeat (apply elem_of_cons in Hin as [->|Hin]; [reflexivity|]).
    by apply elem_of_nil in Hin.
Defined.

Lemma role_order_and_repetition_irrelevant_witness :
  hasPermission testPolicy (withRoles ["admin"; "author"; "admin"])
    "article" "delete" (article "2")
  = hasPermission testPolicy (withRoles ["author"; "admin"])
      "article" "delete" (article "2").
Proof.
  apply (role_order_and_repetition_irrelevant testPolicy
           (mkUser "1" (JStrArray ["author"; "admin"]))
           (mkUser "1" (JStrArray ["admin"; "author"; "admin"]))
           "article" "delete" (article "2")
           ["author"; "admin"] ["admin"; "author"; "admin"]).
  - reflexivity.
  - reflexivity.
  - intros role. rewrite !elem_of_cons, !elem_of_nil. tauto.
  - intros role Hin.
    repeat (apply elem_of_cons in Hin as [->|Hin]; [by eexists|]).
    by apply elem_of_nil in Hin.
Defined.

Lemma static_rules_decide_alone_witness :
  hasPermission testPolicy (withRoles ["ghost"; "author"]) "article" "create" None
  = Ok true.
Proof.
  rewrite (static_rules_decide_alone testPolicy (withRoles ["ghost"; "author"])
             "article" "create" None ["ghost"; "author"]).
  - reflexivity.
  - reflexivity.
  - ordinary_names.
  - ordinary_names.
  - ordinary_names.
  - intros role check Hin.
    repeat (apply elem_of_cons in Hin as [->|Hin]; [discriminate|]).
    by apply elem_of_nil in Hin.
Defined.
End FurtherScenarios.
